(** * pownycli.client: the command-line front end of the GNS rules tool

    A shallow embedding of [src/pownycli/client.py].  Python values are an
    inductive type, a command is a function from the state of the world
    (file system and the output produced so far) to an outcome and a new
    world, and the three ways a Python call can end (return, exception,
    [sys.exit]) are the three constructors of [outcome]. *)

From Stdlib Require Import ZArith Lia Ascii String.
From Stdlib Require Import Sorting.Sorted Sorting.Permutation.
From Stdlib Require OrderedTypeEx.
From stdpp Require Import gmap strings list fin_maps sorting.

Set Warnings "-register-all".

Local Open Scope string_scope.
Local Open Scope list_scope.
Local Open Scope Z_scope.

(** ** Python values *)

(** The values the front end handles: what [json.load] and the YAML
    configuration produce, and the [None]/[str] arguments click passes. *)
Inductive pyval : Type :=
  | PyNone
  | PyBool (b : bool)
  | PyInt (z : Z)
  | PyStr (s : string)
  | PyList (l : list pyval)
  | PyDict (d : list (string * pyval)).

(** Python's truth value testing ([if x:]). *)
Definition truthy (v : pyval) : bool :=
  match v with
  | PyNone => false
  | PyBool b => b
  | PyInt z => negb (z =? 0)
  | PyStr s => negb (String.eqb s "")
  | PyList l => match l with [] => false | _ => true end
  | PyDict d => match d with [] => false | _ => true end
  end.

(** An optional [str] argument as click hands it over. *)
Definition of_opt_str (o : option string) : pyval :=
  match o with Some s => PyStr s | None => PyNone end.

(** ** Exceptions and outcomes *)

Inductive exc_class : Type :=
  | BadParameter        (* click.BadParameter, a click.UsageError *)
  | RuntimeError
  | TypeError
  | ValueError
  | IndexError
  | OSError
  | OtherException (name : string).

Global Instance exc_class_eq_dec : EqDecision exc_class.
Proof. solve_decision. Defined.

Record exn : Type := Exn { exn_class : exc_class; exn_args : list string }.

Global Instance exn_eq_dec : EqDecision exn.
Proof. solve_decision. Defined.

(** How a call ends: it returns, an [Exception] propagates, or
    [SystemExit] (not an [Exception]) propagates with a status. *)
Inductive outcome (A : Type) : Type :=
  | Ret (a : A)
  | Raise (e : exn)
  | Exit (code : Z).
Arguments Ret {A} a.
Arguments Raise {A} e.
Arguments Exit {A} code.

(** ** The world *)

Inductive loglevel : Type := DEBUG | INFO | WARNING | ERROR.

(** A file opened by [click.File('r')]: its name and its text. *)
Record pyfile : Type := PyFile { f_name : string; f_text : string }.

Inductive logarg : Type :=
  | ArgStr (s : string)
  | ArgVal (v : pyval)
  | ArgFile (f : pyfile)
  | ArgExn (e : exn).

(** What an invocation does that an operator or the remote service can
    observe, in the order it happens. *)
Inductive event : Type :=
  | Log (level : loglevel) (fmt : string) (args : list logarg)
  | Echo (line : string)
  | ClickShow (e : exn)   (* click's [e.show()]: usage and the error on stderr *)
  | CallUpload (api_url : pyval) (rules_path : string) (message : pyval) (force : bool)
  | CallCheck (config : gmap string pyval) (rules_path : string) (event_desc : pyval)
  | CallSendEvent (api_url : pyval) (ev : pyval).

(** A file-system node; paths are resolved to their components. *)
Inductive node : Type :=
  | File (contents : string)
  | Dir.

Record world : Type := World {
  w_fs : gmap (list string) node;
  w_out : list event
}.

Definition M (A : Type) : Type := world -> outcome A * world.

Definition ret {A} (a : A) : M A := fun w => (Ret a, w).
Definition raise {A} (e : exn) : M A := fun w => (Raise e, w).
Definition sys_exit {A} (code : Z) : M A := fun w => (Exit code, w).

Definition bind {A B} (m : M A) (k : A -> M B) : M B :=
  fun w =>
    match m w with
    | (Ret a, w') => k a w'
    | (Raise e, w') => (Raise e, w')
    | (Exit c, w') => (Exit c, w')
    end.

Notation "x <- m ;; k" := (bind m (fun x => k))
  (at level 100, m at next level, right associativity).
Notation "m ;;; k" := (bind m (fun _ => k))
  (at level 100, right associativity).

Definition emit (ev : event) : M unit :=
  fun w => (Ret tt, World (w_fs w) (w_out w ++ [ev])).

Definition LOG_error (fmt : string) (args : list logarg) : M unit := emit (Log ERROR fmt args).
Definition LOG_warning (fmt : string) (args : list logarg) : M unit := emit (Log WARNING fmt args).
Definition LOG_info (fmt : string) (args : list logarg) : M unit := emit (Log INFO fmt args).
Definition click_echo (line : string) : M unit := emit (Echo line).

(** [try: m except classes as e: h e else: k a]. *)
Definition try_except_else {A B} (m : M A) (catches : exc_class -> bool)
    (h : exn -> M B) (k : A -> M B) : M B :=
  fun w =>
    match m w with
    | (Ret a, w') => k a w'
    | (Raise e, w') => if catches (exn_class e) then h e w' else (Raise e, w')
    | (Exit c, w') => (Exit c, w')
    end.

(** Lift a result the environment hands back. *)
Definition lift {A} (o : outcome A) : M A := fun w => (o, w).

(** Python's [x in l] on a list of strings. *)
Definition py_in (x : string) (l : list string) : bool :=
  existsb (String.eqb x) l.

(** ** Paths *)

(** [s.rstrip('/')]. *)
Fixpoint rstrip_slash (s : string) : string :=
  match s with
  | EmptyString => EmptyString
  | String c rest =>
      match rstrip_slash rest with
      | EmptyString => if Ascii.eqb c "/"%char then EmptyString else String c EmptyString
      | r => String c r
      end
  end.

Definition ends_with_slash (s : string) : bool :=
  negb (String.eqb (rstrip_slash s) s).

(** [os.path.expanduser] for a path that starts with [~] alone; [home] is
    the user's home directory ([$HOME]).  A [~user] prefix is left as it
    is, as Python does for a user it cannot find. *)
Definition expanduser (home path : string) : string :=
  match path with
  | String "~"%char rest =>
      match rest with
      | EmptyString | String "/"%char _ =>
          let r := rstrip_slash home +:+ rest in
          if String.eqb r "" then "/" else r
      | _ => path
      end
  | _ => path
  end.

(** [os.path.join a b] (posixpath, two arguments). *)
Definition os_path_join (a b : string) : string :=
  match b with
  | String "/"%char _ => b
  | _ => if String.eqb a "" || ends_with_slash a then a +:+ b else a +:+ "/" +:+ b
  end.

(** The components of a path, empty ones dropped: how the system
    resolves an absolute path without [.] and [..]. *)
Fixpoint split_path_aux (cur : string) (s : string) : list string :=
  match s with
  | EmptyString => if String.eqb cur "" then [] else [cur]
  | String c rest =>
      if Ascii.eqb c "/"%char
      then (if String.eqb cur "" then [] else [cur]) ++ split_path_aux "" rest
      else split_path_aux (cur +:+ String c EmptyString) rest
  end.

Definition split_path (s : string) : list string := split_path_aux "" s.

(** The node at a resolved path; the root is a directory. *)
Definition lookup_node (fs : gmap (list string) node) (k : list string) : option node :=
  match k with
  | [] => Some Dir
  | _ => fs !! k
  end.

Definition parent_is_dir (fs : gmap (list string) node) (k : list string) : bool :=
  match lookup_node fs (removelast k) with
  | Some Dir => true
  | _ => false
  end.

Definition os_path_exists (p : string) : M bool :=
  fun w => (Ret (bool_decide (is_Some (lookup_node (w_fs w) (split_path p)))), w).

Definition os_mkdir (p : string) : M unit :=
  fun w =>
    let k := split_path p in
    match lookup_node (w_fs w) k with
    | Some _ => (Raise (Exn OSError ["File exists"; p]), w)
    | None =>
        if parent_is_dir (w_fs w) k
        then (Ret tt, World (<[k := Dir]> (w_fs w)) (w_out w))
        else (Raise (Exn OSError ["No such file or directory"; p]), w)
    end.

(** [with open(p, 'wb') as target: shutil.copyfileobj(source, target)]. *)
Definition write_file (p : string) (contents : string) : M unit :=
  fun w =>
    let k := split_path p in
    match lookup_node (w_fs w) k with
    | Some Dir => (Raise (Exn OSError ["Is a directory"; p]), w)
    | Some (File _) => (Ret tt, World (<[k := File contents]> (w_fs w)) (w_out w))
    | None =>
        if parent_is_dir (w_fs w) k
        then (Ret tt, World (<[k := File contents]> (w_fs w)) (w_out w))
        else (Raise (Exn OSError ["No such file or directory"; p]), w)
    end.

(** ** The environment of the front end *)

(** One hit of the search index, with the fields [job_logs] asks for
    ([fields=@timestamp,msg,args,node,level]); the index returns every
    requested field as an array. *)
Record hit : Type := Hit {
  h_timestamp : list string;
  h_msg : list string;
  h_args : option (list pyval);
  h_level : list string;
  h_node : list string
}.

(** What the front end calls and does not define: the standard library,
    the collaborators [uploader], [checker] and [gnsapi], the search
    index, and the loaded configuration. *)
Record environment : Type := Environment {
  json_load : string -> outcome pyval;
  os_listdir : string -> outcome (list string);
  settings : gmap string pyval;
  home : string;
  default_config : string;
  uploader_upload : pyval -> string -> pyval -> bool -> outcome unit;
  checker_check : gmap string pyval -> string -> pyval -> outcome unit;
  gnsapi_send_event : pyval -> pyval -> outcome unit;
  elastic_hits : string -> Z -> outcome (list hit);
  effective_level : loglevel;
  py_repr : list string -> string;
  py_str_args : list pyval -> string;
  py_percent : string -> list pyval -> outcome string
}.

(** ** Sorting by timestamp *)

(** Python's [<=] on two lists of [str]: the first differing element
    decides, a proper prefix is smaller; two [str] compare by code
    points, which on UTF-8 text is the order of the bytes. *)
Fixpoint key_leb (a b : list string) : bool :=
  match a, b with
  | [], _ => true
  | _ :: _, [] => false
  | x :: a', y :: b' =>
      match String.compare x y with
      | Lt => true
      | Gt => false
      | Eq => key_leb a' b'
      end
  end.

Definition timestamp_key (x : hit) : list string := h_timestamp x.

(** [list.sort(key=...)] is a stable sort; on a total preorder every
    stable sort returns the same list, here by insertion. *)
Fixpoint insert_by {A} (key : A -> list string) (x : A) (l : list A) : list A :=
  match l with
  | [] => [x]
  | y :: l' => if key_leb (key x) (key y) then x :: y :: l' else y :: insert_by key x l'
  end.

Fixpoint list_sort {A} (key : A -> list string) (l : list A) : list A :=
  match l with
  | [] => []
  | x :: l' => insert_by key x (list_sort key l')
  end.

Definition is_echo (ev : event) : option string :=
  match ev with Echo line => Some line | _ => None end.

(** The lines printed on standard output, in order. *)
Definition echoed (evs : list event) : list string := omap is_echo evs.

Section Client.

Variable env : environment.

(** Modelled from the spec: [Settings.get] of [pownycli.settings], which is
    not among the sources; the entry of the loaded configuration under
    [key], or [dflt] when the configuration has none. *)
Definition Settings_get (key : string) (dflt : pyval) : pyval :=
  default dflt (settings env !! key).

(** *** Parameter callbacks *)

Definition _validate_repo_path (value : string) : M string :=
  entries <- lift (os_listdir env value) ;;
  if negb (py_in ".git" entries)
  then raise (Exn BadParameter [value +:+ " is not git repository!"])
  else ret value.

Definition is_TypeError_or_ValueError (c : exc_class) : bool :=
  match c with TypeError | ValueError => true | _ => false end.

Definition _validate_event_desc (event_file : pyfile) : M pyval :=
  try_except_else (lift (json_load env (f_text event_file)))
    is_TypeError_or_ValueError
    (fun _ =>
       LOG_error "Can't parse event description file %s" [ArgFile event_file] ;;;
       ret PyNone)
    (fun event_desc => ret event_desc).

(** The [click.BadParameter] of the last branch is built and dropped: the
    function falls off its end and returns [None]. *)
Definition _read_gns_api_url_from_settings (api_url : pyval) : M pyval :=
  if truthy api_url then ret api_url
  else
    let api_url := Settings_get "gns_api_url" PyNone in
    if truthy api_url then ret api_url
    else
      let _ := Exn BadParameter ["GNS API url does not defined"] in
      ret PyNone.

(** The value click passes to the callback of an option declared with
    [envvar=]: the flag when given, else the environment variable. *)
Definition click_option (flag envvar : option string) : pyval :=
  of_opt_str (match flag with Some s => Some s | None => envvar end).

(** *** create-config *)

Definition gen_config (force : bool) : M unit :=
  let config_dir := "~/.config/powny-cli/" in
  let full_conf_dir := expanduser (home env) config_dir in
  dir_exists <- os_path_exists full_conf_dir ;;
  (if negb dir_exists then os_mkdir full_conf_dir else ret tt) ;;;
  let full_config_path := os_path_join full_conf_dir "config.yaml" in
  file_exists <- os_path_exists full_config_path ;;
  (if file_exists
   then
     if force
     then LOG_warning "Config %s, already created. Will be rewrote." [ArgStr full_config_path]
     else raise (Exn RuntimeError ["Config %s, already exist. Nothing generated."; full_config_path])
   else ret tt) ;;;
  write_file full_config_path (default_config env) ;;;
  LOG_info "%s file created" [ArgStr full_config_path].

(** The path [gen_config] writes. *)
Definition config_path : string :=
  os_path_join (expanduser (home env) "~/.config/powny-cli/") "config.yaml".

(** *** job-logs *)

Definition is_debug (l : loglevel) : bool :=
  match l with DEBUG => true | _ => false end.

Definition is_DEBUG_list (level : list string) : bool :=
  match level with
  | [s] => String.eqb s "DEBUG"
  | _ => false
  end.

Definition args_truthy (args : option (list pyval)) : bool :=
  match args with
  | Some (_ :: _) => true
  | _ => false
  end.

(** ["{node}: {time} {level} {msg}".format(...)]: the three arrays are
    shown by their [repr]. *)
Definition format_record (node time level : list string) (msg : string) : string :=
  py_repr env node +:+ ": " +:+ py_repr env time +:+ " " +:+ py_repr env level +:+ " " +:+ msg.

(** The body of the loop for one hit. *)
Definition print_hit (x : hit) : M unit :=
  msg <- match h_msg x with
         | [] => raise (Exn IndexError ["list index out of range"])
         | m :: _ => ret m
         end ;;
  let args := h_args x in
  let time := h_timestamp x in
  let level := h_level x in
  let node := h_node x in
  if negb (is_debug (effective_level env)) && is_DEBUG_list level
  then ret tt
  else
    let msg := format_record node time level msg in
    if args_truthy args
    then
      let a := default [] args in
      try_except_else (line <- lift (py_percent env msg a) ;; click_echo line)
        (fun c => match c with TypeError => true | _ => false end)
        (fun error =>
           LOG_warning "Can't format string. %s. So next record is a raw." [ArgExn error] ;;;
           click_echo (msg +:+ py_str_args env a))
        (fun _ => ret tt)
    else click_echo msg.

Fixpoint print_hits (hits : list hit) : M unit :=
  match hits with
  | [] => ret tt
  | x :: rest => print_hit x ;;; print_hits rest
  end.

Definition job_logs (job_id : string) (size : Z) : M unit :=
  hits <- lift (elastic_hits env job_id size) ;;
  let hits := list_sort timestamp_key hits in
  print_hits hits.

(** *** rules *)

Definition rules (rules_path : string) : M string := ret rules_path.

Definition upload (rules_path : string) (api_url message : pyval) (force : bool) : M unit :=
  LOG_info "Upload updated rules to GNS..." [] ;;;
  emit (CallUpload api_url rules_path message force) ;;;
  lift (uploader_upload env api_url rules_path message force).

Definition execute (rules_path : string) (event_desc : pyval) : M unit :=
  let config := settings env in
  emit (CallCheck config rules_path event_desc) ;;;
  lift (checker_check env config rules_path event_desc).

(** *** gns *)

Definition gns (api_url : pyval) : M pyval := ret api_url.

Definition opt_truthy (o : option string) : bool := truthy (of_opt_str o).

Definition send_event (api_url : pyval) (host service severity : option string)
    (file : option pyfile) : M unit :=
  ev <- match file with
        | Some f => lift (json_load env (f_text f))
        | None =>
            if opt_truthy host && opt_truthy service && opt_truthy severity
            then ret (PyDict [("host", of_opt_str host);
                              ("service", of_opt_str service);
                              ("severity", of_opt_str severity)])
            else
              LOG_error "You mast pass `host service severity` args or --file option" [] ;;;
              sys_exit 1
        end ;;
  LOG_info "Send event: {}" [ArgVal ev] ;;;
  emit (CallSendEvent api_url ev) ;;;
  lift (gnsapi_send_event env api_url ev).

(** *** Commands as click runs them: the callbacks of a group's options,
    the group, the callbacks of the command's options, the command. *)

Definition rules_upload (rules_path : string) (flag envvar : option string)
    (message : pyval) (force : bool) : M unit :=
  value <- _validate_repo_path rules_path ;;
  obj <- rules value ;;
  api_url <- _read_gns_api_url_from_settings (click_option flag envvar) ;;
  upload obj api_url message force.

Definition rules_exec (rules_path : string) (event_file : pyfile) : M unit :=
  value <- _validate_repo_path rules_path ;;
  obj <- rules value ;;
  event_desc <- _validate_event_desc event_file ;;
  execute obj event_desc.

Definition gns_send_event (flag envvar : option string)
    (host service severity : option string) (file : option pyfile) : M unit :=
  api_url <- _read_gns_api_url_from_settings (click_option flag envvar) ;;
  obj <- gns api_url ;;
  send_event obj host service severity file.

(** *** The entry point *)

Definition is_click_exception (c : exc_class) : bool :=
  match c with BadParameter => true | _ => false end.

(** [cli()]: click runs the command in standalone mode.  A command that
    returns ends the process with status 0; a click exception is shown and
    ends it with the exception's exit code, 2 for a usage error; any other
    exception, and [SystemExit], pass through. *)
Definition cli (command : M unit) : M unit :=
  fun w =>
    match command w with
    | (Ret _, w') => (Exit 0, w')
    | (Raise e, w') =>
        if is_click_exception (exn_class e)
        then (emit (ClickShow e) ;;; sys_exit 2) w'
        else (Raise e, w')
    | (Exit c, w') => (Exit c, w')
    end.

Definition main (command : M unit) : M unit :=
  try_except_else (cli command) (fun _ => true)
    (fun error => LOG_error "Error occurred: %s" [ArgExn error] ;;; sys_exit 1)
    (fun _ => ret tt).

End Client.

(** ** The uploader *)

Module Uploader.

(** A version token is opaque; only equality is ever asked of it. *)
Definition token : Type := nat.

Inductive change : Type :=
  | Added (new : string)
  | Changed (old new : string)
  | Removed (old : string).

Inductive upload_error : Type :=
  | SyncConflictError
  | TransportError.

Inductive push_result : Type :=
  | Pushed
  | VersionConflict.

(** The remote store: the authoritative rule set (path to content), its
    version token, and the change messages of the pushes it accepted. *)
Record remote_store : Type := RemoteStore {
  r_rules : gmap string string;
  r_token : token;
  r_messages : list string
}.

(** The local side: the current rule set of the working copy and the
    token recorded at the last synchronization. *)
Record local_repo : Type := LocalRepo {
  l_rules : gmap string string;
  l_synced : token
}.

(** Which of the two network calls of an upload get through. *)
Record transport : Type := Transport { fetch_ok : bool; push_ok : bool }.

Definition diff_entry (r l : option string) : option change :=
  match r, l with
  | None, None => None
  | None, Some n => Some (Added n)
  | Some o, None => Some (Removed o)
  | Some o, Some n => if decide (o = n) then None else Some (Changed o n)
  end.

(** Modelled from the spec: the [UploadManifest] of [pownycli.uploader],
    which is not among the sources; the rules that differ (added,
    changed, removed) between the remote rule set and the local one. *)
Definition manifest_of (remote_rules local_rules : gmap string string) : gmap string change :=
  merge diff_entry remote_rules local_rules.

Definition apply_entry (c : option change) (r : option string) : option string :=
  match c with
  | Some (Added n) | Some (Changed _ n) => Some n
  | Some (Removed _) => None
  | None => r
  end.

Definition apply_manifest (m : gmap string change) (rules : gmap string string) : gmap string string :=
  merge apply_entry m rules.

Section WithTokens.

(** The token the remote store gives to the state after an accepted push. *)
Variable next_token : token -> token.

(** Modelled from the spec: [RemoteRuleStore.push] of the remote client,
    which is not among the sources; all or nothing, [VersionConflict]
    when the token presented is stale. *)
Definition push (m : gmap string change) (message : string) (tok : token)
    (remote : remote_store) : push_result * remote_store :=
  if decide (tok = r_token remote)
  then (Pushed,
        RemoteStore (apply_manifest m (r_rules remote))
                    (next_token (r_token remote))
                    (r_messages remote ++ [message]))
  else (VersionConflict, remote).

(** Modelled from the spec: the manifest an upload computes, when it gets
    as far as computing one (step 4 of [upload] in [pownycli.uploader],
    which is not among the sources). *)
Definition computed_manifest (tr : transport) (remote : remote_store) (local : local_repo)
    (force : bool) : option (gmap string change) :=
  if negb (fetch_ok tr) then None
  else if negb (bool_decide (r_token remote = l_synced local)) && negb force then None
  else Some (manifest_of (r_rules remote) (l_rules local)).

(** Modelled from the spec: [upload] of [pownycli.uploader], which is not
    among the sources.  Fetch the remote token and snapshot; fail with
    [SyncConflictError] when the token differs from the last synchronized
    one and [force] is false; else build the manifest, push it unless it
    is empty, and record the remote's token locally on success.  No
    other client is at work while it runs; [upload_racing] has them. *)
Definition upload (tr : transport) (remote : remote_store) (local : local_repo)
    (message : string) (force : bool)
    : (unit + upload_error) * remote_store * local_repo :=
  if negb (fetch_ok tr) then (inr TransportError, remote, local)
  else
    let tok := r_token remote in
    let snapshot := r_rules remote in
    if negb (bool_decide (tok = l_synced local)) && negb force
    then (inr SyncConflictError, remote, local)
    else
      let m := manifest_of snapshot (l_rules local) in
      if bool_decide (m = ∅)
      then (inl tt, remote, LocalRepo (l_rules local) tok)
      else if negb (push_ok tr) then (inr TransportError, remote, local)
      else
        match push m message tok remote with
        | (Pushed, remote') => (inl tt, remote', LocalRepo (l_rules local) (r_token remote'))
        | (VersionConflict, remote') => (inr SyncConflictError, remote', local)
        end.

(** Modelled from the spec: the pushes of other clients that the remote
    store accepts while an upload runs, after its fetch and before its
    push (the race of 4.2 step 5 and section 5), which are not among
    the sources; each presents the token current when it lands, as a
    client that has just fetched does. *)
Definition concurrent_pushes (others : list (gmap string change * string))
    (remote : remote_store) : remote_store :=
  foldl (fun r other => snd (push (fst other) (snd other) (r_token r) r)) remote others.

(** Modelled from the spec: [upload] of [pownycli.uploader], which is not
    among the sources, with the pushes of other clients that land
    between its fetch and its push.  The token and the snapshot are those
    fetched; the push presents the fetched token to the remote store as
    it is by then, and a [VersionConflict] is surfaced as
    [SyncConflictError], with no retry. *)
Definition upload_racing (others : list (gmap string change * string))
    (tr : transport) (remote : remote_store) (local : local_repo)
    (message : string) (force : bool)
    : (unit + upload_error) * remote_store * local_repo :=
  let remote1 := concurrent_pushes others remote in
  if negb (fetch_ok tr) then (inr TransportError, remote1, local)
  else
    let tok := r_token remote in
    let snapshot := r_rules remote in
    if negb (bool_decide (tok = l_synced local)) && negb force
    then (inr SyncConflictError, remote1, local)
    else
      let m := manifest_of snapshot (l_rules local) in
      if bool_decide (m = ∅)
      then (inl tt, remote1, LocalRepo (l_rules local) tok)
      else if negb (push_ok tr) then (inr TransportError, remote1, local)
      else
        match push m message tok remote1 with
        | (Pushed, remote') => (inl tt, remote', LocalRepo (l_rules local) (r_token remote'))
        | (VersionConflict, remote') => (inr SyncConflictError, remote', local)
        end.

End WithTokens.

End Uploader.

(** ** A concrete environment

    A small installation to run the definitions on: a home directory, a
    repository at [/srv/rules], a directory without version control at
    [/tmp/plain], no configured service address. *)

Definition sample_json_load (text : string) : outcome pyval :=
  if String.eqb text "null" then Ret PyNone
  else if String.eqb text "[1]" then Ret (PyList [PyInt 1])
  else if String.eqb text "{}" then Ret (PyDict [])
  else Raise (Exn ValueError ["Expecting value: line 1 column 1 (char 0)"]).

Definition sample_listdir (path : string) : outcome (list string) :=
  if String.eqb path "/srv/rules" then Ret ["rules"; ".git"; "README"]
  else if String.eqb path "/tmp/plain" then Ret ["notes.txt"]
  else Raise (Exn OSError ["No such file or directory"; path]).

Definition sample_hits : list hit :=
  [ Hit ["2014-09-02T10:00:03"] ["done"] None ["INFO"] ["node2"];
    Hit ["2014-09-02T10:00:01"] ["start %s"] (Some [PyStr "job"]) ["INFO"] ["node1"];
    Hit ["2014-09-02T10:00:02"] ["step"] None ["DEBUG"] ["node1"] ].

Definition sample_env : environment := {|
  json_load := sample_json_load;
  os_listdir := sample_listdir;
  settings := ∅;
  home := "/home/op";
  default_config := "gns_api_url: http://localhost:7887";
  uploader_upload := fun _ _ _ _ => Ret tt;
  checker_check := fun _ _ _ => Ret tt;
  gnsapi_send_event := fun _ _ => Ret tt;
  elastic_hits := fun _ _ => Ret sample_hits;
  effective_level := INFO;
  py_repr := fun l => "[" +:+ String.concat ", " l +:+ "]";
  py_str_args := fun _ => "[...]";
  py_percent := fun fmt _ => Ret fmt
|}.

Definition empty_world : world := World ∅ [].

(** A home directory in which the configuration file already exists. *)
Definition configured_world : world :=
  World (<[ ["home"; "op"; ".config"; "powny-cli"; "config.yaml"] := File "old" ]>
         (<[ ["home"; "op"; ".config"; "powny-cli"] := Dir ]>
          (<[ ["home"; "op"; ".config"] := Dir ]>
           (<[ ["home"; "op"] := Dir ]>
            (<[ ["home"] := Dir ]> ∅)))))
        [].

(** ** What the theorems speak of *)

(** The record [send_event] logs for a call it cannot use. *)
Definition usage_error : event :=
  Log ERROR "You mast pass `host service severity` args or --file option" [].



(** Python's [key(x) <= key(y)]. *)
Definition le_by {A} (key : A -> list string) (x y : A) : Prop :=
  key_leb (key x) (key y) = true.

(** The order [job_logs] sorts by. *)
Definition ts_le : hit -> hit -> Prop := le_by timestamp_key.

(** The line [print_hit] writes for a hit, when it writes one. *)
Definition rendered_line (env : environment) (x : hit) : string :=
  let msg := format_record env (h_node x) (h_timestamp x) (h_level x)
               (match h_msg x with m :: _ => m | [] => "" end) in
  if args_truthy (h_args x)
  then match py_percent env msg (default [] (h_args x)) with
       | Ret line => line
       | _ => msg +:+ py_str_args env (default [] (h_args x))
       end
  else msg.

(** A remote store one push ahead of a local repository that has edited
    its only rule. *)
Definition sample_remote : Uploader.remote_store :=
  Uploader.RemoteStore {[ "a.rule" := "v1" ]} 1%nat ["first"].


(** ** The rest of the front end *)

(** The hits the loop of [job_logs] does not skip: all of them at level
    DEBUG, else those whose level is not [['DEBUG']]. *)
Definition visible (env : environment) (x : hit) : bool :=
  negb (negb (is_debug (effective_level env)) && is_DEBUG_list (h_level x)).

(** The hits one turn of the loop gets through: a message is there, and
    when the hit is shown with arguments the formatting returns or fails
    with the [TypeError] the loop catches. *)
Definition printable (env : environment) (x : hit) : bool :=
  match h_msg x with
  | [] => false
  | m :: _ =>
      if visible env x && args_truthy (h_args x)
      then match py_percent env
                   (format_record env (h_node x) (h_timestamp x) (h_level x) m)
                   (default [] (h_args x)) with
           | Ret _ => true
           | Raise e => match exn_class e with TypeError => true | _ => false end
           | Exit _ => false
           end
      else true
  end.

(** The double quote. *)
Definition dquote : string := String (Ascii.ascii_of_nat 34) EmptyString.

(** [click.Path(exists=True)], the type of [--rules-path]: click refuses
    a value that names nothing before it calls the callback of the
    option; [path_exists] is what the system answers. *)
Definition click_Path_exists (path_exists : string -> bool) (value : string) : M string :=
  if path_exists value then ret value
  else raise (Exn BadParameter ["Path " +:+ dquote +:+ value +:+ dquote +:+ " does not exist."]).


Definition rules_exec_cli (path_exists : string -> bool) (env : environment)
    (rules_path : string) (event_file : pyfile) : M unit :=
  value <- click_Path_exists path_exists rules_path ;;
  rules_exec env value event_file.

(** The paths that exist in the sample installation, and the sample
    installation asked to list a plain file. *)
Definition sample_path_exists (path : string) : bool :=
  String.eqb path "/srv/rules" || String.eqb path "/srv/rules/README"
  || String.eqb path "/tmp/plain".



Section Browser.

Variable env : environment.

(** [webbrowser.get(using=browser).open_new_tab(url)], or
    [webbrowser.open_new_tab(url)] for the default browser. *)
Variable browser_open_new_tab : option string -> pyval -> outcome bool.

Definition open_log_page (browser : option string) : M unit :=
  let url := Settings_get env "kibana_dashboard_url" PyNone in
  try_except_else
    (if opt_truthy browser
     then lift (browser_open_new_tab browser url)
     else lift (browser_open_new_tab None url))
    (fun _ => true)
    (fun error =>
       LOG_error "Can't open %s in %s browser. Error occurred: %s"
         [ArgVal url;
          ArgStr (if opt_truthy browser then default "" browser else "default");
          ArgExn error])
    (fun _ => ret tt).

End Browser.

(** The components of the directory and of the file of [gen_config]. *)
Definition config_dir_key (env : environment) : list string :=
  split_path (expanduser (home env) "~/.config/powny-cli/").

Definition config_key (env : environment) : list string :=
  split_path (config_path env).

(** A home directory with [.config] in it and nothing below. *)
Definition fresh_world : world :=
  World (<[ ["home"; "op"; ".config"] := Dir ]>
         (<[ ["home"; "op"] := Dir ]>
          (<[ ["home"] := Dir ]> ∅)))
        [].

(** A home directory without [.config]. *)
Definition bare_world : world :=
  World (<[ ["home"; "op"] := Dir ]> (<[ ["home"] := Dir ]> ∅)) [].

(** The sample installation with event files that cannot be read. *)
Definition unreadable_env : environment := {|
  json_load := fun _ => Raise (Exn OSError ["Input/output error"]);
  os_listdir := sample_listdir;
  settings := ∅;
  home := "/home/op";
  default_config := default_config sample_env;
  uploader_upload := uploader_upload sample_env;
  checker_check := checker_check sample_env;
  gnsapi_send_event := gnsapi_send_event sample_env;
  elastic_hits := elastic_hits sample_env;
  effective_level := INFO;
  py_repr := py_repr sample_env;
  py_str_args := py_str_args sample_env;
  py_percent := py_percent sample_env
|}.

(** A home directory where a directory sits at the path of the
    configuration file. *)
Definition blocked_world : world :=
  World (<[ ["home"; "op"; ".config"; "powny-cli"; "config.yaml"] := Dir ]>
         (<[ ["home"; "op"; ".config"; "powny-cli"] := Dir ]>
          (<[ ["home"; "op"; ".config"] := Dir ]>
           (<[ ["home"; "op"] := Dir ]>
            (<[ ["home"] := Dir ]> ∅)))))
        [].

(** Hits of which the second by timestamp has no message. *)
Definition broken_hits : list hit :=
  [ Hit ["2014-09-02T10:00:03"] ["late"] None ["INFO"] ["node2"];
    Hit ["2014-09-02T10:00:02"] [] None ["INFO"] ["node1"];
    Hit ["2014-09-02T10:00:01"] ["early"] None ["INFO"] ["node1"] ].

Definition broken_env : environment := {|
  json_load := sample_json_load;
  os_listdir := sample_listdir;
  settings := ∅;
  home := "/home/op";
  default_config := default_config sample_env;
  uploader_upload := uploader_upload sample_env;
  checker_check := checker_check sample_env;
  gnsapi_send_event := gnsapi_send_event sample_env;
  elastic_hits := fun _ _ => Ret broken_hits;
  effective_level := INFO;
  py_repr := py_repr sample_env;
  py_str_args := py_str_args sample_env;
  py_percent := py_percent sample_env
|}.

(** The sample installation with the service address configured. *)
Definition configured_env : environment := {|
  json_load := sample_json_load;
  os_listdir := sample_listdir;
  settings := {[ "gns_api_url" := PyStr "http://conf" ]};
  home := "/home/op";
  default_config := default_config sample_env;
  uploader_upload := uploader_upload sample_env;
  checker_check := checker_check sample_env;
  gnsapi_send_event := gnsapi_send_event sample_env;
  elastic_hits := elastic_hits sample_env;
  effective_level := INFO;
  py_repr := py_repr sample_env;
  py_str_args := py_str_args sample_env;
  py_percent := py_percent sample_env
|}.

(** * Properties *)

(** Unfold the plumbing of [M] so that a command reads as the sequence
    of its effects. *)
Ltac run :=
  unfold bind, ret, raise, sys_exit, lift, emit, LOG_error, LOG_info,
    LOG_warning, click_echo, try_except_else in *; cbn in *.

(** ** Repository validation *)

Lemma py_in_spec x l : py_in x l = true <-> x ∈ l.
Proof.
  unfold py_in. rewrite existsb_exists. split.
  - intros (y & Hy & Heq). apply String.eqb_eq in Heq. subst.
    by apply list_elem_of_In.
  - intros Hx. exists x. split; [by apply list_elem_of_In | apply String.eqb_refl].
Qed.

Lemma validate_repo_path_rejects env value entries w :
  os_listdir env value = Ret entries ->
  ".git" ∉ entries ->
  _validate_repo_path env value w
  = (Raise (Exn BadParameter [value +:+ " is not git repository!"]), w).
Proof.
  intros Hls Hnot. unfold _validate_repo_path, bind, lift. rewrite Hls.
  destruct (py_in ".git" entries) eqn:Hin.
  - apply py_in_spec in Hin. contradiction.
  - reflexivity.
Qed.

Lemma validate_repo_path_accepts env value entries w :
  os_listdir env value = Ret entries ->
  ".git" ∈ entries ->
  _validate_repo_path env value w = (Ret value, w).
Proof.
  intros Hls Hin. unfold _validate_repo_path, bind, lift. rewrite Hls.
  apply py_in_spec in Hin. rewrite Hin. reflexivity.
Qed.

(** C4: a rules path whose listing has no [.git] entry is rejected with
    an error before anything else runs (neither [rules upload] nor
    [rules exec] gets as far as a log record or a call, and the world is
    as it was); a path whose listing has the entry is returned unchanged. *)
Theorem validate_repo_path_git env value entries w :
  os_listdir env value = Ret entries ->
  (".git" ∉ entries ->
     exists e,
       exn_class e = BadParameter /\
       _validate_repo_path env value w = (Raise e, w) /\
       (forall flag envvar message force,
          rules_upload env value flag envvar message force w = (Raise e, w)) /\
       (forall event_file, rules_exec env value event_file w = (Raise e, w)))
  /\ (".git" ∈ entries -> _validate_repo_path env value w = (Ret value, w)).
Proof.
  intros Hls. split.
  - intros Hnot.
    pose proof (validate_repo_path_rejects env value entries w Hls Hnot) as Hrej.
    eexists. split; [|split; [exact Hrej|split]].
    + reflexivity.
    + intros. unfold rules_upload, bind at 1. by rewrite Hrej.
    + intros. unfold rules_exec, bind at 1. by rewrite Hrej.
  - by apply validate_repo_path_accepts.
Qed.

Lemma validate_repo_path_git_witness :
  (exists e,
     exn_class e = BadParameter /\
     _validate_repo_path sample_env "/tmp/plain" empty_world = (Raise e, empty_world) /\
     (forall flag envvar message force,
        rules_upload sample_env "/tmp/plain" flag envvar message force empty_world
        = (Raise e, empty_world)) /\
     (forall event_file,
        rules_exec sample_env "/tmp/plain" event_file empty_world = (Raise e, empty_world)))
  /\ _validate_repo_path sample_env "/srv/rules" empty_world = (Ret "/srv/rules", empty_world).
Proof.
  split.
  - apply (validate_repo_path_git sample_env "/tmp/plain" ["notes.txt"] empty_world).
    + reflexivity.
    + intros Hin%py_in_spec. vm_compute in Hin. discriminate.
  - apply (validate_repo_path_git sample_env "/srv/rules" ["rules"; ".git"; "README"] empty_world).
    + reflexivity.
    + apply py_in_spec. reflexivity.
Defined.

(** ** Resolving the service address *)

(** The order of resolution: the flag, then the environment variable,
    then the configuration entry; an empty string counts as absent. *)
Lemma read_gns_api_url_order env flag envvar w :
  _read_gns_api_url_from_settings env (click_option flag envvar) w =
  (Ret (if opt_truthy flag then of_opt_str flag
        else if bool_decide (flag = None) && opt_truthy envvar then of_opt_str envvar
        else if truthy (Settings_get env "gns_api_url" PyNone)
             then Settings_get env "gns_api_url" PyNone
             else PyNone), w).
Proof.
  unfold _read_gns_api_url_from_settings, click_option, opt_truthy, ret.
  destruct flag as [f|]; simpl.
  - destruct (negb (String.eqb f "")); [reflexivity|].
    by destruct (truthy (Settings_get env "gns_api_url" PyNone)).
  - destruct envvar as [v|]; simpl.
    + destruct (negb (String.eqb v "")); [reflexivity|].
      by destruct (truthy (Settings_get env "gns_api_url" PyNone)).
    + by destruct (truthy (Settings_get env "gns_api_url" PyNone)).
Qed.

(** C1: with no flag, no environment variable and no configuration
    entry, the address callback does not fail: it returns [None], and
    [rules upload] goes on to call the uploader with [None] as address. *)
Theorem read_gns_api_url_absent env w :
  settings env !! "gns_api_url" = None ->
  _read_gns_api_url_from_settings env (click_option None None) w = (Ret PyNone, w)
  /\ forall rules_path entries message force,
       os_listdir env rules_path = Ret entries -> ".git" ∈ entries ->
       rules_upload env rules_path None None message force w
       = (uploader_upload env PyNone rules_path message force,
          World (w_fs w)
                (w_out w ++ [Log INFO "Upload updated rules to GNS..." []] ++
                 [CallUpload PyNone rules_path message force])).
Proof.
  intros Hnone.
  assert (Hread : _read_gns_api_url_from_settings env (click_option None None) w = (Ret PyNone, w)).
  { unfold _read_gns_api_url_from_settings, Settings_get. simpl. by rewrite Hnone. }
  split; [exact Hread|].
  intros rules_path entries message force Hls Hin.
  pose proof (validate_repo_path_accepts env rules_path entries w Hls Hin) as Hval.
  unfold rules_upload, rules, upload. run. rewrite Hval, Hread.
  cbn. rewrite <- app_assoc. reflexivity.
Qed.

Lemma read_gns_api_url_absent_witness :
  _read_gns_api_url_from_settings sample_env (click_option None None) empty_world
  = (Ret PyNone, empty_world)
  /\ rules_upload sample_env "/srv/rules" None None (PyStr "edit") false empty_world
     = (Ret tt,
        World ∅ [Log INFO "Upload updated rules to GNS..." [];
                 CallUpload PyNone "/srv/rules" (PyStr "edit") false]).
Proof.
  destruct (read_gns_api_url_absent sample_env empty_world eq_refl) as [Hread Hup].
  split; [exact Hread|].
  apply (Hup "/srv/rules" ["rules"; ".git"; "README"] (PyStr "edit") false eq_refl).
  apply py_in_spec. reflexivity.
Defined.

(** ** The event description *)

(** C2: an event file that is not well-formed JSON does not stop
    [rules exec]: the callback logs an error and returns [None], and the
    checker is entered with [None] as the event. *)
Theorem validate_event_desc_malformed env event_file e w :
  json_load env (f_text event_file) = Raise e ->
  exn_class e = ValueError ->
  _validate_event_desc env event_file w
  = (Ret PyNone,
     World (w_fs w)
           (w_out w ++ [Log ERROR "Can't parse event description file %s" [ArgFile event_file]]))
  /\ forall rules_path entries,
       os_listdir env rules_path = Ret entries -> ".git" ∈ entries ->
       rules_exec env rules_path event_file w
       = (checker_check env (settings env) rules_path PyNone,
          World (w_fs w)
                (w_out w ++ [Log ERROR "Can't parse event description file %s" [ArgFile event_file]]
                 ++ [CallCheck (settings env) rules_path PyNone])).
Proof.
  intros Hload Hcls.
  assert (Hval : _validate_event_desc env event_file w
    = (Ret PyNone,
       World (w_fs w)
             (w_out w ++ [Log ERROR "Can't parse event description file %s" [ArgFile event_file]]))).
  { unfold _validate_event_desc, try_except_else, lift. rewrite Hload, Hcls. reflexivity. }
  split; [exact Hval|].
  intros rules_path entries Hls Hin.
  pose proof (validate_repo_path_accepts env rules_path entries w Hls Hin) as Hrepo.
  unfold rules_exec, rules, execute. run. rewrite Hrepo, Hval.
  cbn. rewrite <- app_assoc. reflexivity.
Qed.

Lemma validate_event_desc_malformed_witness :
  rules_exec sample_env "/srv/rules" (PyFile "event.json" "{host:") empty_world
  = (Ret tt,
     World ∅ [Log ERROR "Can't parse event description file %s"
                [ArgFile (PyFile "event.json" "{host:")];
              CallCheck ∅ "/srv/rules" PyNone]).
Proof.
  destruct (validate_event_desc_malformed sample_env (PyFile "event.json" "{host:")
              (Exn ValueError ["Expecting value: line 1 column 1 (char 0)"]) empty_world
              eq_refl eq_refl) as [_ Hexec].
  apply (Hexec "/srv/rules" ["rules"; ".git"; "README"] eq_refl).
  apply py_in_spec. reflexivity.
Defined.

(** ** send-event *)

(** C3: with no [--file] and an incomplete triple (one of host, service,
    severity missing or empty), [send-event] logs the usage error, submits
    nothing, and the process ends with status 1, whatever the address
    resolved to. *)
Theorem send_event_usage_error env flag envvar host service severity w :
  opt_truthy host && opt_truthy service && opt_truthy severity = false ->
  (forall api_url,
     send_event env api_url host service severity None w
     = (Exit 1, World (w_fs w) (w_out w ++ [usage_error])))
  /\ main (gns_send_event env flag envvar host service severity None) w
     = (Exit 1, World (w_fs w) (w_out w ++ [usage_error])).
Proof.
  intros Hincomplete.
  assert (Hsend : forall api_url,
     send_event env api_url host service severity None w
     = (Exit 1, World (w_fs w) (w_out w ++ [usage_error]))).
  { intros api_url. unfold send_event. run. rewrite Hincomplete. reflexivity. }
  split; [exact Hsend|].
  unfold main, cli, gns_send_event, gns. run.
  rewrite read_gns_api_url_order. by rewrite Hsend.
Qed.

Lemma send_event_usage_error_witness :
  main (gns_send_event sample_env None None (Some "web1") (Some "") None None) empty_world
  = (Exit 1, World ∅ [usage_error]).
Proof.
  apply (send_event_usage_error sample_env None None (Some "web1") (Some "") None empty_world).
  reflexivity.
Defined.

(** C8: when [--file] is given the positional triple plays no part: the
    command behaves as if it had not been given, and the event submitted
    is the one parsed from the file. *)
Theorem send_event_file_precedence env api_url host service severity f ev w :
  json_load env (f_text f) = Ret ev ->
  send_event env api_url host service severity (Some f) w
  = send_event env api_url None None None (Some f) w
  /\ send_event env api_url host service severity (Some f) w
     = (gnsapi_send_event env api_url ev,
        World (w_fs w)
              (w_out w ++ [Log INFO "Send event: {}" [ArgVal ev]] ++ [CallSendEvent api_url ev])).
Proof.
  intros Hload. split; [reflexivity|].
  unfold send_event. run. rewrite Hload. cbn. rewrite <- app_assoc. reflexivity.
Qed.

Lemma send_event_file_precedence_witness :
  send_event sample_env (PyStr "http://gns") (Some "web1") (Some "http") (Some "crit")
    (Some (PyFile "event.json" "[1]")) empty_world
  = (Ret tt,
     World ∅ [Log INFO "Send event: {}" [ArgVal (PyList [PyInt 1])];
              CallSendEvent (PyStr "http://gns") (PyList [PyInt 1])]).
Proof.
  apply (send_event_file_precedence sample_env (PyStr "http://gns")
           (Some "web1") (Some "http") (Some "crit")
           (PyFile "event.json" "[1]") (PyList [PyInt 1]) empty_world).
  reflexivity.
Defined.

(** ** The entry point *)



(** C5: the error of a malformed event file never reaches [main]: it is
    logged in the callback and dropped, so [rules exec] ends as a run of
    the checker on [None] ends, with status 0 when the checker returns,
    where a failure report from [main] and a status that is not zero
    were due. *)
Theorem main_event_error_swallowed env rules_path entries event_file e w :
  os_listdir env rules_path = Ret entries -> ".git" ∈ entries ->
  json_load env (f_text event_file) = Raise e ->
  exn_class e = ValueError ->
  main (rules_exec env rules_path event_file) w
  = main (lift (checker_check env (settings env) rules_path PyNone))
      (World (w_fs w)
             (w_out w ++ [Log ERROR "Can't parse event description file %s" [ArgFile event_file];
                          CallCheck (settings env) rules_path PyNone]))
  /\ (checker_check env (settings env) rules_path PyNone = Ret tt ->
      main (rules_exec env rules_path event_file) w
      = (Exit 0,
         World (w_fs w)
               (w_out w ++ [Log ERROR "Can't parse event description file %s" [ArgFile event_file];
                            CallCheck (settings env) rules_path PyNone]))).
Proof.
  intros Hls Hin Hload Hcls.
  pose proof (validate_repo_path_accepts env rules_path entries w Hls Hin) as Hrepo.
  assert (Hrun : rules_exec env rules_path event_file w
    = (checker_check env (settings env) rules_path PyNone,
       World (w_fs w)
             (w_out w ++ [Log ERROR "Can't parse event description file %s" [ArgFile event_file];
                          CallCheck (settings env) rules_path PyNone]))).
  { unfold rules_exec, rules, execute, _validate_event_desc. run.
    rewrite Hrepo, Hload, Hcls. cbn. rewrite <- app_assoc. reflexivity. }
  split.
  - unfold main, cli, try_except_else, lift. by rewrite Hrun.
  - intros Hret. unfold main, cli, try_except_else. by rewrite Hrun, Hret.
Qed.

Lemma main_event_error_swallowed_witness :
  main (rules_exec sample_env "/srv/rules" (PyFile "event.json" "{host:")) empty_world
  = (Exit 0,
     World ∅ [Log ERROR "Can't parse event description file %s"
                [ArgFile (PyFile "event.json" "{host:")];
              CallCheck ∅ "/srv/rules" PyNone]).
Proof.
  refine (proj2 (main_event_error_swallowed sample_env "/srv/rules" ["rules"; ".git"; "README"]
                   (PyFile "event.json" "{host:")
                   (Exn ValueError ["Expecting value: line 1 column 1 (char 0)"])
                   empty_world eq_refl _ eq_refl eq_refl) eq_refl).
  apply py_in_spec. reflexivity.
Defined.

(** ** create-config *)

Lemma lookup_node_insert fs k n :
  k <> [] -> lookup_node (<[k := n]> fs) k = Some n.
Proof. destruct k; [done | intros _; apply lookup_insert_eq]. Qed.

Example config_path_sample :
  config_path sample_env = "/home/op/.config/powny-cli/config.yaml"
  /\ split_path (config_path sample_env) = ["home"; "op"; ".config"; "powny-cli"; "config.yaml"].
Proof. split; reflexivity. Qed.

(** C9: when the configuration file already exists (in its directory),
    [create-config] without [--force] raises before anything is written
    and leaves the world, the file included, as it was; with [--force] it
    returns and the file holds the default configuration. *)
Theorem gen_config_existing env w old :
  lookup_node (w_fs w) (split_path (expanduser (home env) "~/.config/powny-cli/")) = Some Dir ->
  lookup_node (w_fs w) (split_path (config_path env)) = Some (File old) ->
  (exists e,
     exn_class e = RuntimeError /\
     gen_config env false w = (Raise e, w))
  /\ (exists w',
        gen_config env true w = (Ret tt, w') /\
        lookup_node (w_fs w') (split_path (config_path env))
        = Some (File (default_config env)) /\
        forall k, k <> split_path (config_path env) -> w_fs w' !! k = w_fs w !! k).
Proof.
  intros Hdir Hfile.
  unfold gen_config, os_path_exists, write_file, config_path in *. cbv zeta.
  set (dir := expanduser (home env) "~/.config/powny-cli/") in *.
  set (path := os_path_join dir "config.yaml") in *.
  set (kd := split_path dir) in *. set (kf := split_path path) in *.
  clearbody kd kf path dir.
  assert (Hne : kf <> []) by (intros ->; discriminate).
  assert (Hd : bool_decide (is_Some (lookup_node (w_fs w) kd)) = true)
    by (rewrite Hdir; reflexivity).
  assert (Hf : bool_decide (is_Some (lookup_node (w_fs w) kf)) = true)
    by (rewrite Hfile; reflexivity).
  run. rewrite Hd. cbn. rewrite Hf. cbn. split.
  - eexists. split; [|reflexivity]. reflexivity.
  - rewrite Hfile. eexists. split; [reflexivity|]. cbn. split.
    + by apply lookup_node_insert.
    + intros k Hk. by rewrite lookup_insert_ne.
Qed.

Lemma gen_config_existing_witness :
  (exists e,
     exn_class e = RuntimeError /\
     gen_config sample_env false configured_world = (Raise e, configured_world))
  /\ (exists w',
        gen_config sample_env true configured_world = (Ret tt, w') /\
        lookup_node (w_fs w') (split_path (config_path sample_env))
        = Some (File (default_config sample_env)) /\
        forall k, k <> split_path (config_path sample_env) ->
                  w_fs w' !! k = w_fs configured_world !! k).
Proof.
  apply (gen_config_existing sample_env configured_world "old").
  - vm_compute. reflexivity.
  - vm_compute. reflexivity.
Defined.

(** ** job-logs *)

Section SortFacts.

Lemma compare_lt_trans a b c :
  String.compare a b = Lt -> String.compare b c = Lt -> String.compare a c = Lt.
Proof.
  intros Hab Hbc.
  apply OrderedTypeEx.String_as_OT.cmp_lt in Hab, Hbc.
  apply OrderedTypeEx.String_as_OT.cmp_lt.
  eapply OrderedTypeEx.String_as_OT.lt_trans; eassumption.
Qed.

Lemma key_leb_total a b : key_leb a b = true \/ key_leb b a = true.
Proof.
  revert b. induction a as [|x a IH]; intros [|y b]; cbn; auto.
  rewrite (String.compare_antisym y x).
  destruct (String.compare x y); cbn; auto.
Qed.

Lemma key_leb_trans a b c :
  key_leb a b = true -> key_leb b c = true -> key_leb a c = true.
Proof.
  revert b c. induction a as [|x a IH]; intros [|y b] [|z c]; cbn; try done.
  destruct (String.compare x y) eqn:Hxy; try done.
  - apply String.compare_eq_iff in Hxy. subst y.
    destruct (String.compare x z); try done. apply IH.
  - destruct (String.compare y z) eqn:Hyz; try done.
    + apply String.compare_eq_iff in Hyz. subst z. by rewrite Hxy.
    + by rewrite (compare_lt_trans x y z Hxy Hyz).
Qed.

Context {A : Type} (key : A -> list string).

Local Abbreviation le := (le_by key).

Lemma insert_by_perm x l : insert_by key x l ≡ₚ x :: l.
Proof.
  induction l as [|y l IH]; cbn; [done|].
  destruct (key_leb (key x) (key y)); [done|].
  rewrite IH. apply Permutation_swap.
Qed.

Lemma list_sort_perm l : list_sort key l ≡ₚ l.
Proof.
  induction l as [|x l IH]; cbn; [done|].
  by rewrite insert_by_perm, IH.
Qed.

Lemma insert_by_sorted x l :
  StronglySorted le l -> StronglySorted le (insert_by key x l).
Proof.
  induction 1 as [|y l Hs IH Hall]; cbn.
  - repeat constructor.
  - destruct (key_leb (key x) (key y)) eqn:Hxy.
    + constructor; [by constructor|].
      constructor; [exact Hxy|].
      eapply Forall_impl; [exact Hall|].
      intros z Hyz. unfold le_by in *. by eapply key_leb_trans.
    + assert (Hyx : le y x).
      { unfold le_by. destruct (key_leb_total (key x) (key y)); congruence. }
      constructor; [exact IH|].
      rewrite (insert_by_perm x l). by constructor.
Qed.

Lemma list_sort_sorted l : StronglySorted le (list_sort key l).
Proof.
  induction l as [|x l IH]; cbn; [constructor | by apply insert_by_sorted].
Qed.



End SortFacts.

(** On the sample hits: the DEBUG record is skipped and the other two
    come out by timestamp, the reverse of the order they arrived in. *)
Example job_logs_sample :
  echoed (w_out (snd (job_logs sample_env "job-42" 50 empty_world)))
  = ["[node1]: [2014-09-02T10:00:01] [INFO] start %s";
     "[node2]: [2014-09-02T10:00:03] [INFO] done"].
Proof. vm_compute. reflexivity. Qed.

(** ** The uploader *)




Lemma computed_manifest_some tr remote local force m :
  Uploader.computed_manifest tr remote local force = Some m <->
  Uploader.fetch_ok tr = true /\
  (Uploader.r_token remote = Uploader.l_synced local \/ force = true) /\
  m = Uploader.manifest_of (Uploader.r_rules remote) (Uploader.l_rules local).
Proof.
  unfold Uploader.computed_manifest.
  destruct (Uploader.fetch_ok tr); cbn; [|split; [done | by intros [? _]]].
  case_bool_decide as Htok; destruct force; cbn; split;
    try (intros [= <-]; by auto); try (by intros (_ & _ & ->)).
  by intros (_ & [? | ?] & _).
Qed.

(** With no other client at work the racing upload is the plain one. *)
Lemma upload_racing_nil next_token tr remote local message force :
  Uploader.upload_racing next_token [] tr remote local message force
  = Uploader.upload next_token tr remote local message force.
Proof. reflexivity. Qed.




(** C7: an upload whose computed manifest is empty succeeds without
    touching the remote store, its version token included, and doing it
    again, forced or not, succeeds again and changes nothing. *)
Theorem upload_empty_manifest next_token tr remote local message force :
  Uploader.computed_manifest tr remote local force = Some ∅ ->
  exists local',
    Uploader.upload next_token tr remote local message force = (inl tt, remote, local') /\
    forall message' force',
      Uploader.upload next_token tr remote local' message' force' = (inl tt, remote, local').
Proof.
  intros (Hfetch & Hsync & Hempty)%computed_manifest_some.
  exists (Uploader.LocalRepo (Uploader.l_rules local) (Uploader.r_token remote)).
  unfold Uploader.upload. rewrite Hfetch. cbn. rewrite <- Hempty.
  rewrite (bool_decide_eq_true_2 (∅ = ∅)) by done. split.
  - destruct Hsync as [-> | ->].
    + by rewrite bool_decide_eq_true_2.
    + by rewrite andb_false_r.
  - intros message' force'. by rewrite bool_decide_eq_true_2.
Qed.

Lemma upload_empty_manifest_witness :
  exists local',
    Uploader.upload S (Uploader.Transport true true) sample_remote
      (Uploader.LocalRepo {[ "a.rule" := "v1" ]} 1%nat) "again" false
    = (inl tt, sample_remote, local') /\
    forall message' force',
      Uploader.upload S (Uploader.Transport true true) sample_remote local' message' force'
      = (inl tt, sample_remote, local').
Proof.
  apply (upload_empty_manifest S (Uploader.Transport true true) sample_remote
           (Uploader.LocalRepo {[ "a.rule" := "v1" ]} 1%nat) "again" false).
  vm_compute. reflexivity.
Defined.

(** * Further properties of the front end *)

(** ** Callbacks *)



(** A rules path that names nothing never reaches the callback: click
    shows its own error and the process ends with status 2. *)
Example rules_exec_cli_missing_path :
  main (rules_exec_cli sample_path_exists sample_env "/nowhere"
          (PyFile "event.json" "null")) empty_world
  = (Exit 2,
     World ∅ [ClickShow (Exn BadParameter
                ["Path " +:+ dquote +:+ "/nowhere" +:+ dquote +:+ " does not exist."])]).
Proof. reflexivity. Qed.

(** A well-formed event file goes to the checker as parsed, once, with
    the loaded configuration, and nothing is logged on the way; the
    outcome of [rules exec] is the checker's. *)
Theorem rules_exec_well_formed env rules_path entries event_file ev w :
  os_listdir env rules_path = Ret entries -> ".git" ∈ entries ->
  json_load env (f_text event_file) = Ret ev ->
  _validate_event_desc env event_file w = (Ret ev, w)
  /\ rules_exec env rules_path event_file w
     = (checker_check env (settings env) rules_path ev,
        World (w_fs w) (w_out w ++ [CallCheck (settings env) rules_path ev])).
Proof.
  intros Hls Hin Hload.
  assert (Hval : _validate_event_desc env event_file w = (Ret ev, w)).
  { unfold _validate_event_desc, try_except_else, lift, ret. by rewrite Hload. }
  split; [exact Hval|].
  pose proof (validate_repo_path_accepts env rules_path entries w Hls Hin) as Hrepo.
  unfold rules_exec, rules, execute. run. rewrite Hrepo, Hval. reflexivity.
Qed.

Lemma rules_exec_well_formed_witness :
  rules_exec sample_env "/srv/rules" (PyFile "event.json" "[1]") empty_world
  = (Ret tt, World ∅ [CallCheck ∅ "/srv/rules" (PyList [PyInt 1])]).
Proof.
  destruct (rules_exec_well_formed sample_env "/srv/rules" ["rules"; ".git"; "README"]
              (PyFile "event.json" "[1]") (PyList [PyInt 1]) empty_world eq_refl
              (proj1 (py_in_spec ".git" ["rules"; ".git"; "README"]) eq_refl) eq_refl)
    as [_ Hexec].
  exact Hexec.
Defined.

(** Only [TypeError] and [ValueError] are taken for a malformed event:
    any other exception of the load leaves the callback, nothing is
    logged by it and the checker is not entered. *)
Theorem validate_event_desc_other_error env event_file e w :
  json_load env (f_text event_file) = Raise e ->
  is_TypeError_or_ValueError (exn_class e) = false ->
  _validate_event_desc env event_file w = (Raise e, w)
  /\ forall rules_path entries,
       os_listdir env rules_path = Ret entries -> ".git" ∈ entries ->
       rules_exec env rules_path event_file w = (Raise e, w).
Proof.
  intros Hload Hcls.
  assert (Hval : _validate_event_desc env event_file w = (Raise e, w)).
  { unfold _validate_event_desc, try_except_else, lift. by rewrite Hload, Hcls. }
  split; [exact Hval|].
  intros rules_path entries Hls Hin.
  pose proof (validate_repo_path_accepts env rules_path entries w Hls Hin) as Hrepo.
  unfold rules_exec, rules. run. by rewrite Hrepo, Hval.
Qed.

Lemma validate_event_desc_other_error_witness :
  rules_exec unreadable_env "/srv/rules" (PyFile "event.json" "{}") empty_world
  = (Raise (Exn OSError ["Input/output error"]), empty_world).
Proof.
  refine (proj2 (validate_event_desc_other_error unreadable_env (PyFile "event.json" "{}")
                   (Exn OSError ["Input/output error"]) empty_world eq_refl eq_refl)
            "/srv/rules" ["rules"; ".git"; "README"] eq_refl _).
  apply py_in_spec. reflexivity.
Defined.

(** The address callback never fails and never hands on a falsy value
    other than [None]: whatever it is given, it returns a truthy value
    (the argument, or the configuration entry) or [None], and the world
    is as it was. *)
Theorem read_gns_api_url_total env api_url w :
  exists r,
    _read_gns_api_url_from_settings env api_url w = (Ret r, w)
    /\ (truthy r = true \/ r = PyNone)
    /\ (truthy api_url = true -> r = api_url).
Proof.
  unfold _read_gns_api_url_from_settings, ret.
  destruct (truthy api_url) eqn:Harg.
  - exists api_url. auto.
  - destruct (truthy (Settings_get env "gns_api_url" PyNone)) eqn:Hset.
    + eexists. split; [reflexivity|]. split; [by left | done].
    + exists PyNone. split; [reflexivity|]. split; [by right | done].
Qed.

(** Which address wins: a flag that is not empty, whatever the
    environment and the configuration hold; with no flag, an environment
    variable that is not empty; else the configuration entry when it is
    truthy.  A flag given as the empty string hides the environment
    variable: the configuration is asked next. *)
Theorem read_gns_api_url_precedence env flag envvar w :
  (forall f, flag = Some f -> f <> "" ->
     _read_gns_api_url_from_settings env (click_option flag envvar) w = (Ret (PyStr f), w))
  /\ (forall v, flag = None -> envvar = Some v -> v <> "" ->
        _read_gns_api_url_from_settings env (click_option flag envvar) w = (Ret (PyStr v), w))
  /\ (flag = Some "" \/ (flag = None /\ (envvar = None \/ envvar = Some "")) ->
      truthy (Settings_get env "gns_api_url" PyNone) = true ->
      _read_gns_api_url_from_settings env (click_option flag envvar) w
      = (Ret (Settings_get env "gns_api_url" PyNone), w)).
Proof.
  unfold _read_gns_api_url_from_settings, click_option, ret.
  split; [|split].
  - intros f -> Hf%String.eqb_neq. cbn. by rewrite Hf.
  - intros v -> -> Hv%String.eqb_neq. cbn. by rewrite Hv.
  - intros Hempty Hset.
    destruct Hempty as [-> | [-> [-> | ->]]]; cbn; by rewrite Hset.
Qed.

Lemma read_gns_api_url_precedence_witness :
  _read_gns_api_url_from_settings configured_env
    (click_option (Some "http://flag") (Some "http://env")) empty_world
  = (Ret (PyStr "http://flag"), empty_world)
  /\ _read_gns_api_url_from_settings configured_env
       (click_option None (Some "http://env")) empty_world
     = (Ret (PyStr "http://env"), empty_world)
  /\ _read_gns_api_url_from_settings configured_env
       (click_option (Some "") (Some "http://env")) empty_world
     = (Ret (PyStr "http://conf"), empty_world).
Proof.
  split; [|split].
  - refine (proj1 (read_gns_api_url_precedence configured_env (Some "http://flag")
                     (Some "http://env") empty_world) "http://flag" eq_refl _).
    discriminate.
  - refine (proj1 (proj2 (read_gns_api_url_precedence configured_env None
                            (Some "http://env") empty_world)) "http://env" eq_refl eq_refl _).
    discriminate.
  - refine (proj2 (proj2 (read_gns_api_url_precedence configured_env (Some "")
                            (Some "http://env") empty_world)) (or_introl eq_refl) _).
    vm_compute. reflexivity.
Defined.

(** With a repository and the address resolved, [rules upload] logs its
    one line and calls the uploader once, with the address the callback
    resolved, the validated path, the message and the force flag; its
    outcome is the uploader's. *)
Theorem rules_upload_calls_uploader env rules_path entries flag envvar message force url w :
  os_listdir env rules_path = Ret entries -> ".git" ∈ entries ->
  _read_gns_api_url_from_settings env (click_option flag envvar) w = (Ret url, w) ->
  rules_upload env rules_path flag envvar message force w
  = (uploader_upload env url rules_path message force,
     World (w_fs w)
           (w_out w ++ [Log INFO "Upload updated rules to GNS..." [];
                        CallUpload url rules_path message force])).
Proof.
  intros Hls Hin Hread.
  pose proof (validate_repo_path_accepts env rules_path entries w Hls Hin) as Hrepo.
  unfold rules_upload, rules, upload. run. rewrite Hrepo, Hread.
  cbn. rewrite <- app_assoc. reflexivity.
Qed.

Lemma rules_upload_calls_uploader_witness :
  rules_upload sample_env "/srv/rules" (Some "http://flag") (Some "http://env")
    (PyStr "edit") true empty_world
  = (Ret tt,
     World ∅ [Log INFO "Upload updated rules to GNS..." [];
              CallUpload (PyStr "http://flag") "/srv/rules" (PyStr "edit") true]).
Proof.
  refine (rules_upload_calls_uploader sample_env "/srv/rules" ["rules"; ".git"; "README"]
            (Some "http://flag") (Some "http://env") (PyStr "edit") true (PyStr "http://flag")
            empty_world eq_refl _ eq_refl).
  apply py_in_spec. reflexivity.
Defined.

(** ** The entry point *)

(** [main] never returns and never lets an exception out: every
    invocation ends in [SystemExit]. *)
Theorem main_always_exits (command : M unit) w :
  exists code w', main command w = (Exit code, w').
Proof.
  unfold main, cli. run.
  destruct (command w) as [[[]|e|c] w']; cbn; eauto.
  destruct (is_click_exception (exn_class e)); cbn; eauto.
Qed.

(** The process ends with status 0 exactly when the command returned or
    itself exited with 0; then nothing is added to its output. *)
Theorem main_status_zero (command : M unit) w w' :
  main command w = (Exit 0, w') <->
  command w = (Ret tt, w') \/ command w = (Exit 0, w').
Proof.
  unfold main, cli. run.
  destruct (command w) as [[[]|e|c] w0]; cbn.
  - split; [intros [= ->]; by left | intros [[= ->] | [=]]; done].
  - destruct (is_click_exception (exn_class e)); cbn;
      (split; [intros [=] | intros [[=] | [=]]]).
  - split; [intros [= -> ->]; by right | intros [[=] | [= -> ->]]; done].
Qed.

(** ** send-event *)

(** With no file and the three arguments given and not empty, the event
    sent is the dictionary of the three, keys in the order host,
    service, severity; it is logged and sent once. *)
Theorem send_event_triple env api_url h s v w :
  h <> "" -> s <> "" -> v <> "" ->
  send_event env api_url (Some h) (Some s) (Some v) None w
  = (gnsapi_send_event env api_url
       (PyDict [("host", PyStr h); ("service", PyStr s); ("severity", PyStr v)]),
     World (w_fs w)
           (w_out w ++
            [Log INFO "Send event: {}"
               [ArgVal (PyDict [("host", PyStr h); ("service", PyStr s); ("severity", PyStr v)])];
             CallSendEvent api_url
               (PyDict [("host", PyStr h); ("service", PyStr s); ("severity", PyStr v)])])).
Proof.
  intros Hh Hs Hv. unfold send_event, opt_truthy. run.
  apply String.eqb_neq in Hh, Hs, Hv. rewrite Hh, Hs, Hv. cbn.
  rewrite <- app_assoc. reflexivity.
Qed.

Lemma send_event_triple_witness :
  send_event sample_env (PyStr "http://gns") (Some "web1") (Some "http") (Some "crit")
    None empty_world
  = (Ret tt,
     World ∅
       [Log INFO "Send event: {}"
          [ArgVal (PyDict [("host", PyStr "web1"); ("service", PyStr "http");
                           ("severity", PyStr "crit")])];
        CallSendEvent (PyStr "http://gns")
          (PyDict [("host", PyStr "web1"); ("service", PyStr "http");
                   ("severity", PyStr "crit")])]).
Proof.
  apply (send_event_triple sample_env (PyStr "http://gns") "web1" "http" "crit" empty_world);
    discriminate.
Defined.

(** An event file that cannot be parsed stops [send-event], unlike
    [rules exec]: the error of the load leaves the command, whatever the
    positional arguments, nothing is logged or sent, and [main] reports
    the error with status 1. *)
Theorem send_event_malformed_file env flag envvar host service severity f e w :
  json_load env (f_text f) = Raise e ->
  is_click_exception (exn_class e) = false ->
  (forall api_url, send_event env api_url host service severity (Some f) w = (Raise e, w))
  /\ main (gns_send_event env flag envvar host service severity (Some f)) w
     = (Exit 1, World (w_fs w) (w_out w ++ [Log ERROR "Error occurred: %s" [ArgExn e]])).
Proof.
  intros Hload Hcls.
  assert (Hsend : forall api_url,
            send_event env api_url host service severity (Some f) w = (Raise e, w)).
  { intros api_url. unfold send_event. run. by rewrite Hload. }
  split; [exact Hsend|].
  unfold main, cli, gns_send_event, gns. run.
  rewrite read_gns_api_url_order, Hsend, Hcls. reflexivity.
Qed.

Lemma send_event_malformed_file_witness :
  main (gns_send_event sample_env (Some "http://gns") None (Some "web1") (Some "http")
          (Some "crit") (Some (PyFile "event.json" "{host:"))) empty_world
  = (Exit 1,
     World ∅ [Log ERROR "Error occurred: %s"
                [ArgExn (Exn ValueError ["Expecting value: line 1 column 1 (char 0)"])]]).
Proof.
  refine (proj2 (send_event_malformed_file sample_env (Some "http://gns") None
                   (Some "web1") (Some "http") (Some "crit")
                   (PyFile "event.json" "{host:")
                   (Exn ValueError ["Expecting value: line 1 column 1 (char 0)"])
                   empty_world eq_refl eq_refl)).
Defined.

(** ** browse-logs *)

(** [browse-logs] never fails on the browser: whatever exception opening
    the page raises, the command logs one error naming the address, the
    browser asked for (or [default]) and the exception, and returns; when
    the page opens nothing is logged. *)
Theorem open_log_page_never_raises env browser_open_new_tab browser w :
  (forall e, fst (open_log_page env browser_open_new_tab browser w) <> Raise e)
  /\ match browser_open_new_tab (if opt_truthy browser then browser else None)
            (Settings_get env "kibana_dashboard_url" PyNone) with
     | Ret _ => open_log_page env browser_open_new_tab browser w = (Ret tt, w)
     | Raise e =>
         open_log_page env browser_open_new_tab browser w
         = (Ret tt,
            World (w_fs w)
                  (w_out w ++
                   [Log ERROR "Can't open %s in %s browser. Error occurred: %s"
                      [ArgVal (Settings_get env "kibana_dashboard_url" PyNone);
                       ArgStr (if opt_truthy browser then default "" browser else "default");
                       ArgExn e]]))
     | Exit c => open_log_page env browser_open_new_tab browser w = (Exit c, w)
     end.
Proof.
  unfold open_log_page. run.
  destruct (opt_truthy browser); destruct (browser_open_new_tab _ _); cbn; done.
Qed.

(** ** create-config, on any home directory *)

Lemma append_nonempty (a b : string) : b <> "" -> String.eqb (a +:+ b) "" = false.
Proof.
  intros Hb. apply String.eqb_neq. destruct a; [done | discriminate].
Qed.

Lemma append_cons c (a b : string) : String c a +:+ b = String c (a +:+ b).
Proof. reflexivity. Qed.

Lemma append_assoc_s (a b c : string) : (a +:+ b) +:+ c = a +:+ (b +:+ c).
Proof.
  induction a as [|x a IH]; [reflexivity|].
  by rewrite !append_cons, IH.
Qed.

(** A slash ends a component and starts the next. *)
Lemma split_path_aux_slash cur a b :
  split_path_aux cur (a +:+ String "/"%char b)
  = split_path_aux cur a ++ split_path_aux "" b.
Proof.
  revert cur. induction a as [|c a IH]; intros cur.
  - reflexivity.
  - rewrite append_cons. cbn [split_path_aux].
    destruct (Ascii.eqb c "/"%char); [by rewrite IH, app_assoc | apply IH].
Qed.

(** Where [gen_config] works, for any home directory: in
    [.config/powny-cli] below it, on [config.yaml] in there. *)
Lemma config_dir_key_eq env :
  config_dir_key env = split_path (rstrip_slash (home env)) ++ [".config"; "powny-cli"].
Proof.
  unfold config_dir_key, expanduser.
  rewrite append_nonempty by discriminate.
  unfold split_path. by rewrite split_path_aux_slash.
Qed.

Lemma config_key_eq env :
  config_key env
  = split_path (rstrip_slash (home env)) ++ [".config"; "powny-cli"; "config.yaml"].
Proof.
  unfold config_key, config_path, expanduser.
  rewrite append_nonempty by discriminate.
  set (d := rstrip_slash (home env) +:+ "/.config/powny-cli/").
  unfold os_path_join.
  change (match "config.yaml" with
          | String "/"%char _ => "config.yaml"
          | _ => if String.eqb d "" || ends_with_slash d
                 then d +:+ "config.yaml" else d +:+ "/" +:+ "config.yaml"
          end)
    with (if String.eqb d "" || ends_with_slash d
          then d +:+ "config.yaml" else d +:+ "/" +:+ "config.yaml").
  destruct (String.eqb d "" || ends_with_slash d); unfold d, split_path.
  - rewrite append_assoc_s.
    change ("/.config/powny-cli/" +:+ "config.yaml") with "/.config/powny-cli/config.yaml".
    by rewrite split_path_aux_slash.
  - change ("/" +:+ "config.yaml") with (String "/"%char "config.yaml").
    rewrite !split_path_aux_slash. by rewrite <- app_assoc.
Qed.

Lemma config_key_parent env : removelast (config_key env) = config_dir_key env.
Proof.
  rewrite config_key_eq, config_dir_key_eq.
  change [".config"; "powny-cli"; "config.yaml"] with ([".config"; "powny-cli"] ++ ["config.yaml"]).
  rewrite app_assoc. apply removelast_last.
Qed.

Lemma config_key_ne_dir env : config_key env <> config_dir_key env.
Proof.
  rewrite config_key_eq, config_dir_key_eq. intros Heq.
  apply app_inv_head in Heq. discriminate.
Qed.

Lemma config_key_ne_nil env : config_key env <> [].
Proof. rewrite config_key_eq. by intros [_ [=]]%app_eq_nil. Qed.

Lemma config_dir_key_ne_nil env : config_dir_key env <> [].
Proof. rewrite config_dir_key_eq. by intros [_ [=]]%app_eq_nil. Qed.

Lemma lookup_node_insert_ne fs (k k' : list string) n :
  k <> k' -> lookup_node (<[k := n]> fs) k' = lookup_node fs k'.
Proof. intros Hne. destruct k'; [done|]. cbn. by rewrite lookup_insert_ne. Qed.

Lemma lookup_node_lookup fs (k : list string) :
  k <> [] -> lookup_node fs k = fs !! k.
Proof. by destruct k. Qed.

(** Name the two paths of [gen_config] and keep what is known of them:
    the file lies in the directory, and neither is the root. *)
Ltac gen_config_keys env :=
  pose proof (config_key_parent env) as Hparent;
  pose proof (config_key_ne_dir env) as Hne;
  pose proof (config_key_ne_nil env) as Hkf0;
  pose proof (config_dir_key_ne_nil env) as Hkd0;
  unfold gen_config, os_path_exists, os_mkdir, write_file, parent_is_dir,
    config_key, config_dir_key, config_path in *;
  cbv zeta;
  set (dir := expanduser (home env) "~/.config/powny-cli/") in *;
  set (path := os_path_join dir "config.yaml") in *;
  set (kd := split_path dir) in *; set (kf := split_path path) in *;
  clearbody kd kf path; clearbody dir.

(** Split on what is at the directory, at its parent and at the file,
    and run the command through. *)
Ltac gen_config_cases w kd kf Hparent :=
  destruct (lookup_node (w_fs w) kd) as [[]|] eqn:Hdir;
  destruct (lookup_node (w_fs w) (removelast kd)) as [[]|] eqn:Hpar;
  destruct (lookup_node (w_fs w) kf) as [[]|] eqn:Hfile;
  cbn;
  repeat (first [ rewrite Hdir | rewrite Hpar | rewrite Hfile | rewrite Hparent
                | rewrite (lookup_node_insert_ne _ kd kf) by done
                | rewrite (lookup_node_insert _ kd) by done ]; cbn).

(** On a first run, with [.config] in the home directory and nothing
    below it, [create-config] makes the directory, writes the default
    configuration into the file and logs that it did, forced or not. *)
Theorem gen_config_first_run env force w :
  lookup_node (w_fs w) (config_dir_key env) = None ->
  lookup_node (w_fs w) (removelast (config_dir_key env)) = Some Dir ->
  lookup_node (w_fs w) (config_key env) = None ->
  gen_config env force w
  = (Ret tt,
     World (<[config_key env := File (default_config env)]>
              (<[config_dir_key env := Dir]> (w_fs w)))
           (w_out w ++ [Log INFO "%s file created" [ArgStr (config_path env)]])).
Proof.
  intros Hdir Hpar Hfile. gen_config_keys env. run.
  repeat (first [ rewrite Hdir | rewrite Hpar
                | rewrite (lookup_node_insert_ne _ kd kf) by done
                | rewrite Hfile
                | rewrite Hparent, lookup_node_insert by done ]; cbn).
  reflexivity.
Qed.

Lemma gen_config_first_run_witness :
  gen_config sample_env false fresh_world
  = (Ret tt,
     World (<[config_key sample_env := File (default_config sample_env)]>
              (<[config_dir_key sample_env := Dir]> (w_fs fresh_world)))
           (w_out fresh_world ++
            [Log INFO "%s file created" [ArgStr (config_path sample_env)]])).
Proof.
  apply (gen_config_first_run sample_env false fresh_world); vm_compute; reflexivity.
Defined.

(** The directory is made with [os.mkdir], one level only: when
    [.config] is missing from the home directory, [create-config] fails
    with the error of the system and writes nothing. *)
Theorem gen_config_no_parent env force w :
  lookup_node (w_fs w) (config_dir_key env) = None ->
  lookup_node (w_fs w) (removelast (config_dir_key env)) <> Some Dir ->
  exists e, exn_class e = OSError /\ gen_config env force w = (Raise e, w).
Proof.
  intros Hdir Hpar. gen_config_keys env. run.
  repeat (rewrite Hdir; cbn).
  destruct (lookup_node (w_fs w) (removelast kd)) as [[]|]; try done;
    (eexists; split; [|reflexivity]; reflexivity).
Qed.

Lemma gen_config_no_parent_witness :
  exists e, exn_class e = OSError /\ gen_config sample_env true bare_world = (Raise e, bare_world).
Proof.
  apply (gen_config_no_parent sample_env true bare_world).
  - vm_compute. reflexivity.
  - vm_compute. discriminate.
Defined.

(** When nothing is at the path of the configuration file, [--force]
    changes nothing: the command does the same with and without it. *)
Theorem gen_config_force_irrelevant env w :
  lookup_node (w_fs w) (config_key env) = None ->
  gen_config env true w = gen_config env false w.
Proof.
  intros Hfile. gen_config_keys env. run.
  destruct (lookup_node (w_fs w) kd) as [n|] eqn:Hdir;
    destruct (lookup_node (w_fs w) (removelast kd)) as [[]|] eqn:Hpar;
    cbn;
    repeat (first [ rewrite Hdir | rewrite Hpar | rewrite Hfile
                  | rewrite (lookup_node_insert_ne _ kd kf) by done ]; cbn);
    reflexivity.
Qed.

Lemma gen_config_force_irrelevant_witness :
  gen_config sample_env true fresh_world = gen_config sample_env false fresh_world.
Proof.
  apply (gen_config_force_irrelevant sample_env fresh_world). vm_compute. reflexivity.
Defined.

(** Whenever [create-config] returns, the file holds the default
    configuration and the last thing logged says it was created. *)
Theorem gen_config_postcondition env force w :
  fst (gen_config env force w) = Ret tt ->
  lookup_node (w_fs (snd (gen_config env force w))) (config_key env)
  = Some (File (default_config env))
  /\ last (w_out (snd (gen_config env force w)))
     = Some (Log INFO "%s file created" [ArgStr (config_path env)]).
Proof.
  gen_config_keys env. run.
  destruct force; gen_config_cases w kd kf Hparent;
    intros Hret; try discriminate;
    (split; [by apply lookup_node_insert | by rewrite last_snoc]).
Qed.

Lemma gen_config_postcondition_witness :
  lookup_node (w_fs (snd (gen_config sample_env true configured_world))) (config_key sample_env)
  = Some (File (default_config sample_env))
  /\ last (w_out (snd (gen_config sample_env true configured_world)))
     = Some (Log INFO "%s file created" [ArgStr (config_path sample_env)]).
Proof.
  apply (gen_config_postcondition sample_env true configured_world).
  vm_compute. reflexivity.
Defined.

(** [create-config] touches nothing but its directory and its file:
    however it ends, every other path holds what it held. *)
Theorem gen_config_frame env force w k :
  k <> config_dir_key env -> k <> config_key env ->
  w_fs (snd (gen_config env force w)) !! k = w_fs w !! k.
Proof.
  intros Hk1 Hk2. gen_config_keys env. run.
  destruct force; gen_config_cases w kd kf Hparent;
    rewrite ?lookup_insert_ne by done; reflexivity.
Qed.

Lemma gen_config_frame_witness :
  w_fs (snd (gen_config sample_env false fresh_world)) !! ["home"; "op"]
  = w_fs fresh_world !! ["home"; "op"].
Proof.
  apply (gen_config_frame sample_env false fresh_world ["home"; "op"]);
    vm_compute; discriminate.
Defined.

(** Without [--force] nothing that is at the path of the configuration
    file is ever replaced, a file or a directory, however the command
    ends. *)
Theorem gen_config_keeps_existing env w n :
  lookup_node (w_fs w) (config_key env) = Some n ->
  lookup_node (w_fs (snd (gen_config env false w))) (config_key env) = Some n.
Proof.
  intros Hfile. gen_config_keys env. run.
  destruct (lookup_node (w_fs w) kd) as [m|] eqn:Hdir;
    destruct (lookup_node (w_fs w) (removelast kd)) as [[]|] eqn:Hpar;
    cbn;
    repeat (first [ rewrite Hdir | rewrite Hpar | rewrite Hfile
                  | rewrite (lookup_node_insert_ne _ kd kf) by done ]; cbn);
    done.
Qed.

Lemma gen_config_keeps_existing_witness :
  lookup_node (w_fs (snd (gen_config sample_env false configured_world))) (config_key sample_env)
  = Some (File "old").
Proof.
  apply (gen_config_keeps_existing sample_env configured_world (File "old")).
  vm_compute. reflexivity.
Defined.

(** A directory in the place of the configuration file defeats
    [--force]: the command warns that it will rewrite the file, then the
    write fails and the file system is as it was. *)
Theorem gen_config_path_is_directory env w :
  lookup_node (w_fs w) (config_dir_key env) = Some Dir ->
  lookup_node (w_fs w) (config_key env) = Some Dir ->
  exists e,
    exn_class e = OSError /\
    gen_config env true w
    = (Raise e,
       World (w_fs w)
             (w_out w ++ [Log WARNING "Config %s, already created. Will be rewrote."
                            [ArgStr (config_path env)]])).
Proof.
  intros Hdir Hfile. gen_config_keys env. run.
  repeat (first [rewrite Hdir | rewrite Hfile]; cbn).
  eexists. split; [|reflexivity]. reflexivity.
Qed.

(** ** job-logs, line by line *)

(** One turn of the loop: a printable hit is passed, with its line when
    it is visible; any other hit ends the loop with no line. *)
Lemma print_hit_spec env x w :
  exists r evs,
    print_hit env x w = (r, World (w_fs w) (w_out w ++ evs)) /\
    ((printable env x = true /\ r = Ret tt /\
      echoed evs = if visible env x then [rendered_line env x] else [])
     \/ (printable env x = false /\ r <> Ret tt /\ echoed evs = [])).
Proof.
  unfold print_hit, printable, rendered_line, visible. run.
  destruct (h_msg x) as [|m ms]; cbn.
  { exists (Raise (Exn IndexError ["list index out of range"])), [].
    rewrite app_nil_r. split; [by destruct w | by right]. }
  destruct (negb (is_debug (effective_level env)) && is_DEBUG_list (h_level x)); cbn.
  { exists (Ret tt), []. rewrite app_nil_r. split; [by destruct w | by left]. }
  destruct (args_truthy (h_args x)); cbn.
  - destruct (py_percent env _ _) as [line|e|c]; cbn.
    + exists (Ret tt), [Echo line]. split; [done | by left].
    + destruct (exn_class e); cbn;
        try (exists (Raise e), []; rewrite app_nil_r; split; [by destruct w | by right]).
      unfold emit; cbn. eexists (Ret tt), [_; _]. rewrite <- app_assoc. cbn.
      split; [done | by left].
    + exists (Exit c), []. rewrite app_nil_r. split; [by destruct w | by right].
  - eexists (Ret tt), [_]. split; [done | by left].
Qed.

(** The loop prints the lines of the visible hits, in order, up to the
    first hit that is not printable, and returns only if there is none. *)
Lemma print_hits_spec env hits w :
  exists r evs,
    print_hits env hits w = (r, World (w_fs w) (w_out w ++ evs)) /\
    ((Forall (fun x => printable env x = true) hits /\ r = Ret tt /\
      echoed evs = map (rendered_line env) (filter (fun x => visible env x = true) hits))
     \/ (exists pre x post,
           hits = pre ++ x :: post /\
           Forall (fun y => printable env y = true) pre /\
           printable env x = false /\ r <> Ret tt /\
           echoed evs = map (rendered_line env) (filter (fun y => visible env y = true) pre))).
Proof.
  revert w. induction hits as [|x rest IH]; intros w; cbn [print_hits].
  - exists (Ret tt), []. unfold ret. rewrite app_nil_r.
    split; [by destruct w | left; by repeat constructor].
  - unfold bind.
    destruct (print_hit_spec env x w) as (r & evs & Hx & Hcase). rewrite Hx.
    destruct Hcase as [(Hp & -> & Hev) | (Hp & Hr & Hev)].
    + destruct (IH (World (w_fs w) (w_out w ++ evs))) as (r' & evs' & Hrest & Hcase').
      cbn in Hrest. exists r', (evs ++ evs'). rewrite app_assoc.
      split; [exact Hrest|]. unfold echoed in *. rewrite omap_app, Hev.
      destruct Hcase' as [(Hall & -> & Hev') | (pre & y & post & -> & Hall & Hy & Hr' & Hev')].
      * left. split; [by constructor|]. split; [done|]. rewrite Hev'.
        rewrite filter_cons. destruct (visible env x); by case_decide.
      * right. exists (x :: pre), y, post. split; [done|]. split; [by constructor|].
        split; [done|]. split; [done|]. rewrite Hev'.
        rewrite filter_cons. destruct (visible env x); by case_decide.
    + exists r, evs. split.
      { destruct r as [[]|e|c]; [done | reflexivity | reflexivity]. }
      right. exists [], x, rest. split; [done|]. split; [constructor|]. by rewrite Hev.
Qed.






(** When every hit is printable, [job-logs] returns having printed the
    line of every visible hit, by timestamp: none is lost and none is
    printed twice. *)
Theorem job_logs_complete env job_id size hits w :
  elastic_hits env job_id size = Ret hits ->
  (forall x, x ∈ hits -> printable env x = true) ->
  exists evs,
    job_logs env job_id size w = (Ret tt, World (w_fs w) (w_out w ++ evs)) /\
    echoed evs
    = map (rendered_line env)
          (filter (fun x => visible env x = true) (list_sort timestamp_key hits)).
Proof.
  intros Hhits Hall. unfold job_logs, bind, lift. rewrite Hhits.
  destruct (print_hits_spec env (list_sort timestamp_key hits) w)
    as (r & evs & Hrun & Hcase).
  destruct Hcase as [(_ & -> & Hev) | (pre & x & post & Hsplit & _ & Hx & _)].
  - by exists evs.
  - assert (Hin : x ∈ hits).
    { rewrite <- (list_sort_perm timestamp_key hits), Hsplit. set_solver. }
    rewrite (Hall x Hin) in Hx. discriminate.
Qed.

Lemma job_logs_complete_witness :
  exists evs,
    job_logs sample_env "job-42" 50 empty_world
    = (Ret tt, World (w_fs empty_world) (w_out empty_world ++ evs)) /\
    echoed evs
    = map (rendered_line sample_env)
          (filter (fun x => visible sample_env x = true)
                  (list_sort timestamp_key sample_hits)).
Proof.
  apply (job_logs_complete sample_env "job-42" 50 sample_hits empty_world eq_refl).
  intros x Hx. unfold sample_hits in Hx.
  repeat (apply elem_of_cons in Hx as [-> | Hx]; [reflexivity|]).
  by apply elem_of_nil in Hx.
Defined.

(** [job-logs] returns exactly when every hit is printable: one hit
    without a message, hidden or not, or one whose formatting fails with
    anything but [TypeError], makes the whole command fail. *)
Theorem job_logs_returns_iff env job_id size hits w :
  elastic_hits env job_id size = Ret hits ->
  fst (job_logs env job_id size w) = Ret tt <->
  forall x, x ∈ hits -> printable env x = true.
Proof.
  intros Hhits. split.
  - unfold job_logs, bind, lift. rewrite Hhits.
    destruct (print_hits_spec env (list_sort timestamp_key hits) w)
      as (r & evs & Hrun & Hcase).
    rewrite Hrun. cbn. intros ->.
    destruct Hcase as [(Hall & _) | (_ & _ & _ & _ & _ & _ & Hr & _)]; [|done].
    intros x Hx. rewrite Forall_forall in Hall. apply Hall.
    by rewrite (list_sort_perm timestamp_key hits).
  - intros Hall. unfold job_logs, bind, lift. rewrite Hhits.
    destruct (print_hits_spec env (list_sort timestamp_key hits) w)
      as (r & evs & Hrun & Hcase).
    rewrite Hrun. cbn.
    destruct Hcase as [(_ & -> & _) | (pre & x & post & Hsplit & _ & Hx & _)]; [done|].
    assert (Hin : x ∈ hits).
    { rewrite <- (list_sort_perm timestamp_key hits), Hsplit. set_solver. }
    rewrite (Hall x Hin) in Hx. discriminate.
Qed.

Lemma job_logs_returns_iff_witness :
  fst (job_logs sample_env "job-42" 50 empty_world) = Ret tt <->
  forall x, x ∈ sample_hits -> printable sample_env x = true.
Proof.
  apply (job_logs_returns_iff sample_env "job-42" 50 sample_hits empty_world). reflexivity.
Defined.

(** What is printed before a failure: the lines of the visible hits
    that come, by timestamp, before the first hit that is not
    printable, and nothing after. *)
Theorem job_logs_stops_at_first_failure env job_id size hits pre x post w :
  elastic_hits env job_id size = Ret hits ->
  list_sort timestamp_key hits = pre ++ x :: post ->
  (forall y, y ∈ pre -> printable env y = true) ->
  printable env x = false ->
  exists r evs,
    job_logs env job_id size w = (r, World (w_fs w) (w_out w ++ evs)) /\
    r <> Ret tt /\
    echoed evs = map (rendered_line env) (filter (fun y => visible env y = true) pre).
Proof.
  intros Hhits Hsplit Hpre Hx. unfold job_logs, bind, lift. rewrite Hhits, Hsplit.
  clear Hhits Hsplit. revert w. induction pre as [|y pre IH]; intros w;
    cbn [print_hits app].
  - unfold bind. destruct (print_hit_spec env x w) as (r & evs & Hrun & Hcase).
    rewrite Hrun. destruct Hcase as [(Hp & _) | (_ & Hr & Hev)]; [congruence|].
    exists r, evs. split; [|done]. destruct r as [[]|e|c]; done.
  - unfold bind. destruct (print_hit_spec env y w) as (r & evs & Hrun & Hcase).
    rewrite Hrun. destruct Hcase as [(_ & -> & Hev) | (Hp & _)].
    + destruct (IH (fun z Hz => Hpre z (list_elem_of_further _ _ _ Hz))
                   (World (w_fs w) (w_out w ++ evs))) as (r' & evs' & Hrest & Hr' & Hev').
      cbn in Hrest. unfold bind in Hrest.
      exists r', (evs ++ evs'). rewrite app_assoc. split; [exact Hrest|]. split; [done|].
      unfold echoed in *. rewrite omap_app, Hev, Hev', filter_cons.
      destruct (visible env y); by case_decide.
    + rewrite (Hpre y) in Hp by apply list_elem_of_here. discriminate.
Qed.

Lemma job_logs_stops_at_first_failure_witness :
  exists r evs,
    job_logs broken_env "job-42" 50 empty_world
    = (r, World (w_fs empty_world) (w_out empty_world ++ evs)) /\
    r <> Ret tt /\
    echoed evs = ["[node1]: [2014-09-02T10:00:01] [INFO] early"].
Proof.
  apply (job_logs_stops_at_first_failure broken_env "job-42" 50 broken_hits
           [Hit ["2014-09-02T10:00:01"] ["early"] None ["INFO"] ["node1"]]
           (Hit ["2014-09-02T10:00:02"] [] None ["INFO"] ["node1"])
           [Hit ["2014-09-02T10:00:03"] ["late"] None ["INFO"] ["node2"]]
           empty_world).
  - reflexivity.
  - reflexivity.
  - intros y Hy. apply list_elem_of_singleton in Hy as ->. reflexivity.
  - reflexivity.
Defined.

Lemma gen_config_path_is_directory_witness :
  exists e,
    exn_class e = OSError /\
    gen_config sample_env true blocked_world
    = (Raise e,
       World (w_fs blocked_world)
             (w_out blocked_world ++
              [Log WARNING "Config %s, already created. Will be rewrote."
                 [ArgStr (config_path sample_env)]])).
Proof.
  apply (gen_config_path_is_directory sample_env blocked_world); vm_compute; reflexivity.
Defined.

(** ** The sort of job-logs *)

Lemma key_leb_refl a : key_leb a a = true.
Proof.
  induction a as [|x a IH]; cbn; [done|].
  pose proof (proj2 (OrderedTypeEx.String_as_OT.cmp_eq x x) eq_refl) as Hxx.
  unfold OrderedTypeEx.String_as_OT.cmp in Hxx. by rewrite Hxx.
Qed.

Lemma key_leb_antisym a b : key_leb a b = true -> key_leb b a = true -> a = b.
Proof.
  revert b. induction a as [|x a IH]; intros [|y b]; cbn; try done.
  rewrite (String.compare_antisym y x).
  destruct (String.compare x y) eqn:Hxy; cbn; try done.
  apply String.compare_eq_iff in Hxy. subst y. intros Hab Hba. f_equal. by apply IH.
Qed.

Lemma insert_by_filter {A} (key : A -> list string) k x l :
  filter (fun y => key y = k) (insert_by key x l) = filter (fun y => key y = k) (x :: l).
Proof.
  induction l as [|y l IH]; cbn [insert_by]; [done|].
  destruct (key_leb (key x) (key y)) eqn:Hxy; [done|].
  rewrite filter_cons, IH, !filter_cons.
  destruct (decide (key y = k)) as [Hy|Hy], (decide (key x = k)) as [Hx|Hx]; try done.
  rewrite Hx, Hy, key_leb_refl in Hxy. discriminate.
Qed.

(** The sort is stable: hits with the same timestamp come out in the
    order the index returned them. *)
Theorem list_sort_stable {A} (key : A -> list string) k l :
  filter (fun x => key x = k) (list_sort key l) = filter (fun x => key x = k) l.
Proof.
  induction l as [|x l IH]; cbn [list_sort]; [done|].
  by rewrite insert_by_filter, !filter_cons, IH.
Qed.

Lemma sorted_keys {A} (key : A -> list string) l :
  StronglySorted (le_by key) l ->
  StronglySorted (le_by (fun k : list string => k)) (map key l).
Proof.
  induction 1 as [|x l Hs IH Hall]; cbn; constructor; [done|].
  apply Forall_fmap. exact Hall.
Qed.

(** Two answers of the index that hold the same hits in different
    orders are sorted to the same list when no two hits share a
    timestamp; in any case to the same sequence of timestamps. *)
Theorem list_sort_order_independent (hits hits' : list hit) :
  hits ≡ₚ hits' ->
  map timestamp_key (list_sort timestamp_key hits)
  = map timestamp_key (list_sort timestamp_key hits')
  /\ ((forall x y, x ∈ hits -> y ∈ hits -> timestamp_key x = timestamp_key y -> x = y) ->
      list_sort timestamp_key hits = list_sort timestamp_key hits').
Proof.
  intros Hperm.
  assert (Hsorted_perm : list_sort timestamp_key hits ≡ₚ list_sort timestamp_key hits').
  { by rewrite !list_sort_perm. }
  split.
  - apply (StronglySorted_unique_strong (le_by (fun k : list string => k))).
    + intros a b _ _. apply key_leb_antisym.
    + apply sorted_keys, list_sort_sorted.
    + apply sorted_keys, list_sort_sorted.
    + by apply fmap_Permutation.
  - intros Hinj.
    apply (StronglySorted_unique_strong ts_le).
    + intros x y Hx Hy Hxy Hyx.
      rewrite (list_sort_perm timestamp_key hits) in Hx.
      rewrite (list_sort_perm timestamp_key hits'), <- Hperm in Hy.
      apply Hinj; [done | done |]. by apply key_leb_antisym.
    + apply list_sort_sorted.
    + apply list_sort_sorted.
    + exact Hsorted_perm.
Qed.

Lemma list_sort_order_independent_witness :
  list_sort timestamp_key sample_hits = list_sort timestamp_key (reverse sample_hits).
Proof.
  refine (proj2 (list_sort_order_independent sample_hits (reverse sample_hits) _) _).
  - symmetry. apply reverse_Permutation.
  - intros x y Hx Hy. unfold sample_hits in Hx, Hy.
    repeat (apply elem_of_cons in Hx as [-> | Hx]);
      try (by apply elem_of_nil in Hx);
      repeat (apply elem_of_cons in Hy as [-> | Hy]);
      try (by apply elem_of_nil in Hy); by intros [=].
Defined.
